(** * Query commands of the oracle module's command line client

    A shallow embedding of [x/oracle/client/cli/query.go]: the seven query
    sub-commands built by [GetQueryCmd].  Every command reads its
    positional arguments, obtains a client query context, optionally
    decodes a validator address, invokes one method of the module's query
    client and prints the response.

    The collaborators the file imports (cobra's command runner, the SDK's
    client context, address codec and printer, and the remote node behind
    the query client) are parameters of the development; what is proved
    holds for every behaviour they may have. *)

From Stdlib Require Import String List Arith Bool Lia.
From Stdlib.Strings Require Import Byte.
Import ListNotations.
Open Scope string_scope.
Open Scope list_scope.

(** ** Go values shared by all packages *)

(** Go's [error] values.  The first three constructors are the errors cobra's
    positional-argument validators build with [fmt.Errorf]; [ErrExternal] is
    any error value produced by a collaborator, identified by its message. *)
Inductive error : Type :=
| ErrUnknownCommand (arg path : string)
| ErrAcceptsExact (n received : nat)
| ErrAcceptsRange (min max received : nat)
| ErrExternal (msg : string).

(** A Go result pair [(value, err)]: either a value and a nil error, or an
    error. *)
Inductive result (A : Type) : Type :=
| Ok (a : A)
| Err (e : error).
Arguments Ok {A} a.
Arguments Err {A} e.

(** [sdk.ValAddress] is a byte slice. *)
Definition ValAddress : Type := list byte.

(** ** Package [types]: the request messages and the query service *)
Module types.

Record QueryExchangeRatesRequest : Type := {}.
Record QueryExchangeRateRequest : Type := { Denom : string }.
Record QueryActivesRequest : Type := {}.
Record QueryParamsRequest : Type := {}.
Record QueryFeederDelegationRequest : Type :=
  { FeederDelegation_ValidatorAddr : string }.
Record QueryMissCounterRequest : Type :=
  { MissCounter_ValidatorAddr : string }.
Record QueryAggregatePrevotesRequest : Type := {}.
Record QueryAggregatePrevoteRequest : Type :=
  { AggregatePrevote_ValidatorAddr : string }.
Record QueryAggregateVotesRequest : Type := {}.
Record QueryAggregateVoteRequest : Type :=
  { AggregateVote_ValidatorAddr : string }.

(** One remote procedure of the query service together with the request
    message it is invoked on. *)
Inductive Rpc : Type :=
| RpcExchangeRates (req : QueryExchangeRatesRequest)
| RpcExchangeRate (req : QueryExchangeRateRequest)
| RpcActives (req : QueryActivesRequest)
| RpcParams (req : QueryParamsRequest)
| RpcFeederDelegation (req : QueryFeederDelegationRequest)
| RpcMissCounter (req : QueryMissCounterRequest)
| RpcAggregatePrevotes (req : QueryAggregatePrevotesRequest)
| RpcAggregatePrevote (req : QueryAggregatePrevoteRequest)
| RpcAggregateVotes (req : QueryAggregateVotesRequest)
| RpcAggregateVote (req : QueryAggregateVoteRequest).

End types.

(** ** What one command execution can be observed to do *)

(** The observable actions, in the order they happen: a method of the query
    client is invoked (one outbound call), or bytes are written to the
    command's output. *)
Inductive Event : Type :=
| Invoked (rpc : types.Rpc)
| Written (out : string).

Fixpoint calls (tr : list Event) : list types.Rpc :=
  match tr with
  | [] => []
  | Invoked rpc :: tr' => rpc :: calls tr'
  | Written _ :: tr' => calls tr'
  end.

Fixpoint output (tr : list Event) : list string :=
  match tr with
  | [] => []
  | Invoked _ :: tr' => output tr'
  | Written out :: tr' => out :: output tr'
  end.

(** How a Go function body ends: it returns a value with a nil error, it
    returns an error, or it panics (an index out of range). *)
Inductive outcome (A : Type) : Type :=
| Returned (a : A)
| Failed (e : error)
| Panicked.
Arguments Returned {A} a.
Arguments Failed {A} e.
Arguments Panicked {A}.

(** ** A test double of the collaborators

    A small concrete environment on which the general statements below are
    instantiated: the command is identified by its [--node] flag, the node
    counts the queries it served, and validator addresses are the strings
    that start with the human-readable prefix. *)
Module Double.

Definition Cmd : Type := string.
Definition Context : Type := string.
Definition Response : Type := string.
Definition Node : Type := nat.

Definition CommandPath (cmd : Cmd) : string := "kujirad query oracle".

Definition GetClientQueryContext (cmd : Cmd) : result Context :=
  if String.eqb cmd "" then Err (ErrExternal "missing node")
  else Ok cmd.

Definition valoper : string := "kujiravaloper1".

Definition ValAddressFromBech32 (address : string) : result ValAddress :=
  if String.prefix valoper address
  then Ok (list_byte_of_string
             (substring (String.length valoper) (String.length address)
                address))
  else Err (ErrExternal "decoding bech32 failed").

Definition ValAddress_String (va : ValAddress) : string :=
  String.append valoper (string_of_list_byte va).

Definition Invoke (ctx : Context) (rpc : types.Rpc) (n : Node)
  : result Response * Node :=
  match rpc with
  | types.RpcExchangeRate req =>
      if String.eqb (types.Denom req) "KUJI"
      then (Ok "exchange_rate: 1.5", S n)
      else (Err (ErrExternal "unknown denom"), S n)
  | _ => (Ok "{}", S n)
  end.

Definition printOutput (ctx : Context) (res : Response)
  : list string * option error := ([res], None).

(** A command line whose [--node] flag is set, one whose flag is not, and
    the node before its first query. *)
Definition cmd : Cmd := "tcp://localhost:26657".
Definition nodeless : Cmd := "".
Definition start : Node := 0.

End Double.

(** ** Package [cli] *)
Module cli.

Section Commands.

(** *** The collaborators *)

(** The running [*cobra.Command] handed to [RunE]: its parsed flags and
    its ambient context. *)
Variable Cmd : Type.
(** [client.Context]. *)
Variable Context : Type.
(** A response message of the query service ([proto.Message]). *)
Variable Response : Type.
(** The state of the remote node that answers the queries. *)
Variable Node : Type.

(** [cmd.CommandPath()]. *)
Variable CommandPath : Cmd -> string.
(** [client.GetClientQueryContext(cmd)]: the client context read from the
    flags of [cmd], or an error; it makes no query and prints nothing. *)
Variable GetClientQueryContext : Cmd -> result Context.
(** [sdk.ValAddressFromBech32(address)]: the decoded bytes, or an error. *)
Variable ValAddressFromBech32 : string -> result ValAddress.
(** [ValAddress.String()]: the string form of an address. *)
Variable ValAddress_String : ValAddress -> string.
(** The answer of the remote node to one procedure call made through the
    connection of a client context, and the node's next state. *)
Variable Invoke : Context -> types.Rpc -> Node -> result Response * Node.
(** What [clientCtx.PrintProto(res)] writes to the output, chunk by
    chunk, and the error it returns, if any. *)
Variable printOutput : Context -> Response -> list string * option error.

(** *** Execution state and the command monad *)

Record State : Type := mkState { node : Node; trace : list Event }.

(** A Go function body run on a state: how it ends, and the state it
    leaves.  [bind] is the idiom
    [v, err := f(); if err != nil { return err }]. *)
Definition M (A : Type) : Type := State -> outcome A * State.

Definition ret {A : Type} (a : A) : M A := fun st => (Returned a, st).

Definition fail {A : Type} (e : error) : M A := fun st => (Failed e, st).

Definition panic {A : Type} : M A := fun st => (Panicked, st).

Definition bind {A B : Type} (m : M A) (k : A -> M B) : M B :=
  fun st =>
    match m st with
    | (Returned a, st') => k a st'
    | (Failed e, st') => (Failed e, st')
    | (Panicked, st') => (Panicked, st')
    end.

Notation "x <- m ;; k" := (bind m (fun x => k))
  (at level 61, m at next level, right associativity).

(** A collaborator that touches neither the node nor the output. *)
Definition lift {A : Type} (r : result A) : M A :=
  match r with
  | Ok a => ret a
  | Err e => fail e
  end.

(** Go's [args[i]]: panics when [i] is out of range. *)
Definition index (args : list string) (i : nat) : M string :=
  match nth_error args i with
  | Some a => ret a
  | None => panic
  end.

(** One outbound call, made with [context.Background()]: the invocation
    is observed, then the node answers and moves on. *)
Definition call (ctx : Context) (rpc : types.Rpc) : M Response :=
  fun st =>
    let (r, n') := Invoke ctx rpc (node st) in
    lift r (mkState n' (trace st ++ [Invoked rpc])).

(** [types.QueryClient], the interface of the query service. *)
Record QueryClient : Type := {
  ExchangeRates : types.QueryExchangeRatesRequest -> M Response;
  ExchangeRate : types.QueryExchangeRateRequest -> M Response;
  Actives : types.QueryActivesRequest -> M Response;
  Params : types.QueryParamsRequest -> M Response;
  FeederDelegation : types.QueryFeederDelegationRequest -> M Response;
  MissCounter : types.QueryMissCounterRequest -> M Response;
  AggregatePrevotes : types.QueryAggregatePrevotesRequest -> M Response;
  AggregatePrevote : types.QueryAggregatePrevoteRequest -> M Response;
  AggregateVotes : types.QueryAggregateVotesRequest -> M Response;
  AggregateVote : types.QueryAggregateVoteRequest -> M Response
}.

(** Modelled from the spec: [types.NewQueryClient], the generated client
    of package [x/oracle/types], is not part of this source file.  The
    query service exposes paired list and singular procedures taking
    request objects; every method performs one call of its procedure on
    the connection of the client context and hands back the node's
    answer. *)
Definition NewQueryClient (clientCtx : Context) : QueryClient := {|
  ExchangeRates := fun req => call clientCtx (types.RpcExchangeRates req);
  ExchangeRate := fun req => call clientCtx (types.RpcExchangeRate req);
  Actives := fun req => call clientCtx (types.RpcActives req);
  Params := fun req => call clientCtx (types.RpcParams req);
  FeederDelegation :=
    fun req => call clientCtx (types.RpcFeederDelegation req);
  MissCounter := fun req => call clientCtx (types.RpcMissCounter req);
  AggregatePrevotes :=
    fun req => call clientCtx (types.RpcAggregatePrevotes req);
  AggregatePrevote :=
    fun req => call clientCtx (types.RpcAggregatePrevote req);
  AggregateVotes := fun req => call clientCtx (types.RpcAggregateVotes req);
  AggregateVote := fun req => call clientCtx (types.RpcAggregateVote req)
|}.

(** [clientCtx.PrintProto(res)]: the chunks are written in order, then the
    printer's error, if any, is returned. *)
Definition PrintProto (clientCtx : Context) (res : Response) : M unit :=
  fun st =>
    let (chunks, err) := printOutput clientCtx res in
    let st' := mkState (node st) (trace st ++ map Written chunks) in
    match err with
    | None => (Returned tt, st')
    | Some e => (Failed e, st')
    end.

(** *** The part of cobra the commands rely on *)

(** [cobra.PositionalArgs]: [None] is a nil error. *)
Definition PositionalArgs : Type := Cmd -> list string -> option error.

(** [cobra.NoArgs]: an error if any positional argument is present. *)
Definition NoArgs : PositionalArgs :=
  fun cmd args =>
    match args with
    | [] => None
    | a :: _ => Some (ErrUnknownCommand a (CommandPath cmd))
    end.

(** [cobra.ExactArgs(n)]: an error unless there are exactly [n]
    arguments. *)
Definition ExactArgs (n : nat) : PositionalArgs :=
  fun cmd args =>
    if (length args =? n)%nat then None
    else Some (ErrAcceptsExact n (length args)).

(** [cobra.RangeArgs(min, max)]: an error unless the number of arguments
    lies between [min] and [max], both included. *)
Definition RangeArgs (min max : nat) : PositionalArgs :=
  fun cmd args =>
    if ((length args <? min) || (max <? length args))%nat
    then Some (ErrAcceptsRange min max (length args))
    else None.

(** The fields of [cobra.Command] the commands set, but for the [Long]
    help text.  The query flags that [flags.AddQueryFlagsToCmd] adds are
    read by [GetClientQueryContext] from the running command. *)
Record Command : Type := {
  Use : string;
  Args : PositionalArgs;
  Short : string;
  RunE : Cmd -> list string -> M unit
}.

(** Running a command on its positional arguments, as cobra does once the
    flags are parsed: the [Args] validator first, [RunE] only if it
    returned nil.  Hooks of parent commands are set outside this file. *)
Definition execute (c : Command) (cmd : Cmd) (args : list string) : M unit :=
  match Args c cmd args with
  | Some e => fail e
  | None => RunE c cmd args
  end.

(** *** The query commands *)

(** [GetCmdQueryExchangeRates] implements the query rate command. *)
Definition GetCmdQueryExchangeRates : Command := {|
  Use := "exchange-rates [denom]";
  Args := RangeArgs 0 1;
  Short := "Query the current exchange rate of an asset";
  RunE := fun cmd args =>
    clientCtx <- lift (GetClientQueryContext cmd) ;;
    let queryClient := NewQueryClient clientCtx in
    if (length args =? 0)%nat then
      res <- ExchangeRates queryClient
               (types.Build_QueryExchangeRatesRequest) ;;
      PrintProto clientCtx res
    else
      denom <- index args 0 ;;
      res <- ExchangeRate queryClient {| types.Denom := denom |} ;;
      PrintProto clientCtx res
|}.

(** [GetCmdQueryActives] implements the query actives command. *)
Definition GetCmdQueryActives : Command := {|
  Use := "actives";
  Args := NoArgs;
  Short := "Query the active list of assets recognized by the oracle";
  RunE := fun cmd args =>
    clientCtx <- lift (GetClientQueryContext cmd) ;;
    let queryClient := NewQueryClient clientCtx in
    res <- Actives queryClient (types.Build_QueryActivesRequest) ;;
    PrintProto clientCtx res
|}.

(** [GetCmdQueryParams] implements the query params command. *)
Definition GetCmdQueryParams : Command := {|
  Use := "params";
  Args := NoArgs;
  Short := "Query the current Oracle params";
  RunE := fun cmd args =>
    clientCtx <- lift (GetClientQueryContext cmd) ;;
    let queryClient := NewQueryClient clientCtx in
    res <- Params queryClient (types.Build_QueryParamsRequest) ;;
    PrintProto clientCtx res
|}.

(** [GetCmdQueryFeederDelegation] implements the query feeder delegation
    command. *)
Definition GetCmdQueryFeederDelegation : Command := {|
  Use := "feeder [validator]";
  Args := ExactArgs 1;
  Short := "Query the oracle feeder delegate account";
  RunE := fun cmd args =>
    clientCtx <- lift (GetClientQueryContext cmd) ;;
    let queryClient := NewQueryClient clientCtx in
    valString <- index args 0 ;;
    validator <- lift (ValAddressFromBech32 valString) ;;
    res <- FeederDelegation queryClient
             {| types.FeederDelegation_ValidatorAddr :=
                  ValAddress_String validator |} ;;
    PrintProto clientCtx res
|}.

(** [GetCmdQueryMissCounter] implements the query miss counter of the
    validator command. *)
Definition GetCmdQueryMissCounter : Command := {|
  Use := "miss [validator]";
  Args := ExactArgs 1;
  Short := "Query the # of the miss count";
  RunE := fun cmd args =>
    clientCtx <- lift (GetClientQueryContext cmd) ;;
    let queryClient := NewQueryClient clientCtx in
    valString <- index args 0 ;;
    validator <- lift (ValAddressFromBech32 valString) ;;
    res <- MissCounter queryClient
             {| types.MissCounter_ValidatorAddr :=
                  ValAddress_String validator |} ;;
    PrintProto clientCtx res
|}.

(** [GetCmdQueryAggregatePrevote] implements the query aggregate prevote
    of the validator command. *)
Definition GetCmdQueryAggregatePrevote : Command := {|
  Use := "aggregate-prevotes [validator]";
  Args := RangeArgs 0 1;
  Short := "Query outstanding oracle aggregate prevotes.";
  RunE := fun cmd args =>
    clientCtx <- lift (GetClientQueryContext cmd) ;;
    let queryClient := NewQueryClient clientCtx in
    if (length args =? 0)%nat then
      res <- AggregatePrevotes queryClient
               (types.Build_QueryAggregatePrevotesRequest) ;;
      PrintProto clientCtx res
    else
      valString <- index args 0 ;;
      validator <- lift (ValAddressFromBech32 valString) ;;
      res <- AggregatePrevote queryClient
               {| types.AggregatePrevote_ValidatorAddr :=
                    ValAddress_String validator |} ;;
      PrintProto clientCtx res
|}.

(** [GetCmdQueryAggregateVote] implements the query aggregate vote of the
    validator command. *)
Definition GetCmdQueryAggregateVote : Command := {|
  Use := "aggregate-votes [validator]";
  Args := RangeArgs 0 1;
  Short := "Query outstanding oracle aggregate votes.";
  RunE := fun cmd args =>
    clientCtx <- lift (GetClientQueryContext cmd) ;;
    let queryClient := NewQueryClient clientCtx in
    if (length args =? 0)%nat then
      res <- AggregateVotes queryClient
               (types.Build_QueryAggregateVotesRequest) ;;
      PrintProto clientCtx res
    else
      valString <- index args 0 ;;
      validator <- lift (ValAddressFromBech32 valString) ;;
      res <- AggregateVote queryClient
               {| types.AggregateVote_ValidatorAddr :=
                    ValAddress_String validator |} ;;
      PrintProto clientCtx res
|}.

(** [GetQueryCmd]: the sub-commands added to the module's query command,
    in the order of [AddCommand]. *)
Definition GetQueryCmd : list Command :=
  [ GetCmdQueryExchangeRates;
    GetCmdQueryActives;
    GetCmdQueryParams;
    GetCmdQueryFeederDelegation;
    GetCmdQueryMissCounter;
    GetCmdQueryAggregatePrevote;
    GetCmdQueryAggregateVote ].

(** The commands whose positional argument is a validator address. *)
Definition validatorCommands : list Command :=
  [ GetCmdQueryFeederDelegation;
    GetCmdQueryMissCounter;
    GetCmdQueryAggregatePrevote;
    GetCmdQueryAggregateVote ].

(** The calls and the output of the state a run leaves. *)
Definition callsAfter (r : outcome unit * State) : list types.Rpc :=
  calls (trace (snd r)).

Definition outputAfter (r : outcome unit * State) : list string :=
  output (trace (snd r)).

(** *** Traces *)

Lemma calls_app (t1 t2 : list Event) :
  calls (t1 ++ t2) = calls t1 ++ calls t2.
Proof.
  induction t1 as [|[rpc|out] t1 IH]; simpl; [reflexivity | | exact IH].
  now rewrite IH.
Qed.

Lemma output_app (t1 t2 : list Event) :
  output (t1 ++ t2) = output t1 ++ output t2.
Proof.
  induction t1 as [|[rpc|out] t1 IH]; simpl; [reflexivity | exact IH |].
  now rewrite IH.
Qed.

Lemma calls_Written (chunks : list string) :
  calls (map Written chunks) = [].
Proof. induction chunks; simpl; auto. Qed.

Lemma output_Written (chunks : list string) :
  output (map Written chunks) = chunks.
Proof. induction chunks; simpl; congruence. Qed.

(** *** The steps of a command body *)

Lemma bind_ret {A B : Type} (a : A) (k : A -> M B) (st : State) :
  bind (ret a) k st = k a st.
Proof. reflexivity. Qed.

Lemma bind_lift_Ok {A B : Type} (r : result A) (a : A) (k : A -> M B)
      (st : State) :
  r = Ok a -> bind (lift r) k st = k a st.
Proof. intros ->. reflexivity. Qed.

Lemma bind_lift_Err {A B : Type} (r : result A) (e : error) (k : A -> M B)
      (st : State) :
  r = Err e -> bind (lift r) k st = (Failed e, st).
Proof. intros ->. reflexivity. Qed.

(** The printer issues no call and leaves the node alone. *)
Lemma PrintProto_calls (clientCtx : Context) (res : Response) (st : State) :
  calls (trace (snd (PrintProto clientCtx res st))) = calls (trace st)
  /\ node (snd (PrintProto clientCtx res st)) = node st.
Proof.
  unfold PrintProto. destruct (printOutput clientCtx res) as [chunks [e|]];
    simpl; rewrite calls_app, calls_Written, app_nil_r; auto.
Qed.

(** One call followed by printing its answer: the call is the only one
    issued, and an error answer ends the run at once. *)
Lemma call_print_calls (clientCtx : Context) (rpc : types.Rpc) (st : State) :
  callsAfter ((res <- call clientCtx rpc ;; PrintProto clientCtx res) st)
  = calls (trace st) ++ [rpc].
Proof.
  unfold callsAfter, bind, call.
  destruct (Invoke clientCtx rpc (node st)) as [[res|e] n']; simpl.
  - rewrite (proj1 (PrintProto_calls _ _ _)). simpl.
    now rewrite calls_app.
  - now rewrite calls_app.
Qed.

Lemma call_print_Err (clientCtx : Context) (rpc : types.Rpc) (st : State)
      (e : error) :
  fst (Invoke clientCtx rpc (node st)) = Err e ->
  (res <- call clientCtx rpc ;; PrintProto clientCtx res) st
  = (Failed e, mkState (snd (Invoke clientCtx rpc (node st)))
                       (trace st ++ [Invoked rpc])).
Proof.
  unfold bind, call.
  destruct (Invoke clientCtx rpc (node st)) as [r n']; simpl.
  intros ->. reflexivity.
Qed.

Lemma call_print_Ok (clientCtx : Context) (rpc : types.Rpc) (st : State)
      (res : Response) :
  fst (Invoke clientCtx rpc (node st)) = Ok res ->
  (res <- call clientCtx rpc ;; PrintProto clientCtx res) st
  = PrintProto clientCtx res
      (mkState (snd (Invoke clientCtx rpc (node st)))
               (trace st ++ [Invoked rpc])).
Proof.
  unfold bind, call.
  destruct (Invoke clientCtx rpc (node st)) as [r n']; simpl.
  intros ->. reflexivity.
Qed.

(** Unfolds a command run on a concrete argument list up to its first
    collaborator. *)
Ltac start_run :=
  unfold execute, callsAfter, outputAfter; cbn [Args RunE
    GetCmdQueryExchangeRates GetCmdQueryActives GetCmdQueryParams
    GetCmdQueryFeederDelegation GetCmdQueryMissCounter
    GetCmdQueryAggregatePrevote GetCmdQueryAggregateVote
    RangeArgs ExactArgs NoArgs length Nat.eqb Nat.ltb Nat.leb orb
    NewQueryClient ExchangeRates ExchangeRate Actives Params
    FeederDelegation MissCounter AggregatePrevotes AggregatePrevote
    AggregateVotes AggregateVote index nth_error].

Ltac start_run_in H :=
  unfold execute, callsAfter, outputAfter in H; cbn [Args RunE
    GetCmdQueryExchangeRates GetCmdQueryActives GetCmdQueryParams
    GetCmdQueryFeederDelegation GetCmdQueryMissCounter
    GetCmdQueryAggregatePrevote GetCmdQueryAggregateVote
    RangeArgs ExactArgs NoArgs length Nat.eqb Nat.ltb Nat.leb orb
    NewQueryClient ExchangeRates ExchangeRate Actives Params
    FeederDelegation MissCounter AggregatePrevotes AggregatePrevote
    AggregateVotes AggregateVote index nth_error] in H.

(** Why [feeder] and [miss] ask for exactly one argument: their bodies
    index [args[0]] without looking at the length, and panic on an empty
    list once the client context is there. *)
Remark body_without_argument_panics (cmd : Cmd) (clientCtx : Context)
       (st : State) :
  GetClientQueryContext cmd = Ok clientCtx ->
  RunE GetCmdQueryFeederDelegation cmd [] st = (Panicked, st)
  /\ RunE GetCmdQueryMissCounter cmd [] st = (Panicked, st).
Proof.
  intros Hctx. split; start_run; now rewrite (bind_lift_Ok _ _ _ _ Hctx).
Qed.

(** X9.  The argument validators keep every command body away from that
    panic. *)
Lemma execute_never_panics (c : Command) (cmd : Cmd) (args : list string)
      (st : State) :
  In c GetQueryCmd -> fst (execute c cmd args st) <> Panicked.
Proof.
  intros Hc.
  destruct Hc as [<-|[<-|[<-|[<-|[<-|[<-|[<-|[]]]]]]]];
    destruct args as [|a [|b rest]]; start_run; try discriminate;
    (destruct (GetClientQueryContext cmd) as [ctx|e0];
     [|discriminate]); cbn [lift]; rewrite !bind_ret;
    try (destruct (ValAddressFromBech32 a) as [v|e1];
         [|discriminate]; cbn [lift]; rewrite bind_ret);
    unfold bind, call;
    match goal with
    | |- context [Invoke ?x ?y ?z] =>
        destruct (Invoke x y z) as [[res|e2] n']; [|discriminate]
    end; cbn [lift ret]; unfold PrintProto;
    destruct (printOutput ctx res) as [chunks [e3|]]; discriminate.
Qed.

(** *** The exchange-rates command *)

(** C1. With a client context at hand, [exchange-rates] without a
    positional argument issues exactly the list procedure on the empty
    request, and with one argument [d] exactly the singular procedure on
    a request whose denom is [d] as given. *)
Theorem exchange_rates_dispatch (cmd : Cmd) (clientCtx : Context)
        (st : State) :
  GetClientQueryContext cmd = Ok clientCtx ->
  callsAfter (execute GetCmdQueryExchangeRates cmd [] st)
  = calls (trace st)
      ++ [types.RpcExchangeRates types.Build_QueryExchangeRatesRequest]
  /\ forall d : string,
      callsAfter (execute GetCmdQueryExchangeRates cmd [d] st)
      = calls (trace st)
          ++ [types.RpcExchangeRate {| types.Denom := d |}].
Proof.
  intros Hctx. split; [|intros d]; start_run;
    rewrite (bind_lift_Ok _ _ _ _ Hctx).
  - apply call_print_calls.
  - rewrite bind_ret. apply call_print_calls.
Qed.

(** C10. [exchange-rates] never rejects its denom locally: for every
    string [d], the empty one included, the singular procedure is issued
    with [d]; an error of the node on that call comes back as it is, and
    when the run ends in an error at all, it is the node's answer to
    that call or, after an answer, the printer's. *)
Theorem exchange_rates_denom_unchecked (cmd : Cmd) (clientCtx : Context)
        (d : string) (st : State) :
  GetClientQueryContext cmd = Ok clientCtx ->
  let rpc := types.RpcExchangeRate {| types.Denom := d |} in
  let run := execute GetCmdQueryExchangeRates cmd [d] st in
  callsAfter run = calls (trace st) ++ [rpc]
  /\ (forall e, fst (Invoke clientCtx rpc (node st)) = Err e ->
                fst run = Failed e)
  /\ (forall e, fst run = Failed e ->
                fst (Invoke clientCtx rpc (node st)) = Err e
                \/ exists res,
                    fst (Invoke clientCtx rpc (node st)) = Ok res
                    /\ snd (printOutput clientCtx res) = Some e)
  /\ fst run <> Panicked.
Proof.
  intros Hctx rpc run. subst run. start_run.
  rewrite (bind_lift_Ok _ _ _ _ Hctx), bind_ret. fold rpc.
  split; [apply call_print_calls|].
  destruct (fst (Invoke clientCtx rpc (node st))) as [res|e0] eqn:Hans.
  - rewrite (call_print_Ok _ _ _ _ Hans). unfold PrintProto.
    destruct (printOutput clientCtx res) as [chunks [e1|]] eqn:Hpr; simpl.
    + repeat split; try discriminate.
      intros e [= <-]. right. exists res. now rewrite Hpr.
    + repeat split; discriminate.
  - rewrite (call_print_Err _ _ _ _ Hans). simpl.
    repeat split; try discriminate.
    + now intros e [= <-].
    + intros e [= <-]. now left.
Qed.

(** *** Validator addresses *)

(** C2. With a client context at hand and an argument [s] that the
    decoder accepts as the address [v], each of [feeder], [miss],
    [aggregate-prevotes] and [aggregate-votes] issues exactly its
    per-validator procedure, and the request carries the string form of
    [v], not [s] and not the bytes of [v]. *)
Theorem validator_request_carries_string_form (cmd : Cmd)
        (clientCtx : Context) (s : string) (v : ValAddress) (st : State) :
  GetClientQueryContext cmd = Ok clientCtx ->
  ValAddressFromBech32 s = Ok v ->
  callsAfter (execute GetCmdQueryFeederDelegation cmd [s] st)
  = calls (trace st)
      ++ [types.RpcFeederDelegation
            {| types.FeederDelegation_ValidatorAddr :=
                 ValAddress_String v |}]
  /\ callsAfter (execute GetCmdQueryMissCounter cmd [s] st)
     = calls (trace st)
         ++ [types.RpcMissCounter
               {| types.MissCounter_ValidatorAddr :=
                    ValAddress_String v |}]
  /\ callsAfter (execute GetCmdQueryAggregatePrevote cmd [s] st)
     = calls (trace st)
         ++ [types.RpcAggregatePrevote
               {| types.AggregatePrevote_ValidatorAddr :=
                    ValAddress_String v |}]
  /\ callsAfter (execute GetCmdQueryAggregateVote cmd [s] st)
     = calls (trace st)
         ++ [types.RpcAggregateVote
               {| types.AggregateVote_ValidatorAddr :=
                    ValAddress_String v |}].
Proof.
  intros Hctx Hdec. repeat split; start_run;
    rewrite (bind_lift_Ok _ _ _ _ Hctx), bind_ret,
      (bind_lift_Ok _ _ _ _ Hdec);
    apply call_print_calls.
Qed.

(** A command body on an argument the decoder rejects: the state is left
    as it was, and once the client context is obtained the decoder's
    error is what is returned. *)
Lemma decode_failure_run (c : Command) (cmd : Cmd) (s : string)
      (e : error) (st : State) :
  In c validatorCommands ->
  ValAddressFromBech32 s = Err e ->
  snd (execute c cmd [s] st) = st
  /\ (exists e', fst (execute c cmd [s] st) = Failed e')
  /\ (forall clientCtx, GetClientQueryContext cmd = Ok clientCtx ->
                        execute c cmd [s] st = (Failed e, st)).
Proof.
  intros Hc Hdec.
  destruct Hc as [<-|[<-|[<-|[<-|[]]]]]; start_run;
    (destruct (GetClientQueryContext cmd) as [ctx|e0] eqn:Hctx;
     [ rewrite (bind_lift_Ok _ _ _ _ eq_refl), bind_ret,
         (bind_lift_Err _ _ _ _ Hdec)
     | rewrite (bind_lift_Err _ _ _ _ eq_refl) ];
     (split; [reflexivity | split; [eexists; reflexivity |]]);
     [ reflexivity | discriminate ]).
Qed.

(** C3. When the positional argument of [feeder], [miss],
    [aggregate-prevotes] or [aggregate-votes] fails validator-address
    decoding, the command issues no call and writes nothing, it ends in
    an error, and that error is the decoder's whenever the client
    context was obtained. *)
Theorem decode_failure_issues_no_call (c : Command) (cmd : Cmd)
        (s : string) (e : error) (st : State) :
  In c validatorCommands ->
  ValAddressFromBech32 s = Err e ->
  callsAfter (execute c cmd [s] st) = calls (trace st)
  /\ outputAfter (execute c cmd [s] st) = output (trace st)
  /\ (exists e', fst (execute c cmd [s] st) = Failed e')
  /\ (forall clientCtx, GetClientQueryContext cmd = Ok clientCtx ->
                        fst (execute c cmd [s] st) = Failed e).
Proof.
  intros Hc Hdec.
  destruct (decode_failure_run c cmd s e st Hc Hdec) as (Hst & Herr & Hok).
  unfold callsAfter, outputAfter. rewrite Hst. repeat split; auto.
  intros clientCtx Hctx. now rewrite (Hok clientCtx Hctx).
Qed.

(** *** Aggregate prevotes and votes *)

(** C5. With a client context at hand, [aggregate-prevotes] and
    [aggregate-votes] without an argument issue exactly their list
    procedure on the empty request; with one argument that decodes they
    issue exactly their per-validator procedure; and with one argument of
    any value the list procedure is never the one called. *)
Theorem aggregate_dispatch_by_presence (cmd : Cmd) (clientCtx : Context)
        (st : State) :
  GetClientQueryContext cmd = Ok clientCtx ->
  (callsAfter (execute GetCmdQueryAggregatePrevote cmd [] st)
   = calls (trace st)
       ++ [types.RpcAggregatePrevotes
             types.Build_QueryAggregatePrevotesRequest]
   /\ callsAfter (execute GetCmdQueryAggregateVote cmd [] st)
      = calls (trace st)
          ++ [types.RpcAggregateVotes
                types.Build_QueryAggregateVotesRequest])
  /\ (forall (s : string) (v : ValAddress),
        ValAddressFromBech32 s = Ok v ->
        callsAfter (execute GetCmdQueryAggregatePrevote cmd [s] st)
        = calls (trace st)
            ++ [types.RpcAggregatePrevote
                  {| types.AggregatePrevote_ValidatorAddr :=
                       ValAddress_String v |}]
        /\ callsAfter (execute GetCmdQueryAggregateVote cmd [s] st)
           = calls (trace st)
               ++ [types.RpcAggregateVote
                     {| types.AggregateVote_ValidatorAddr :=
                          ValAddress_String v |}])
  /\ (forall s : string,
        (callsAfter (execute GetCmdQueryAggregatePrevote cmd [s] st)
         = calls (trace st)
         \/ exists req,
             callsAfter (execute GetCmdQueryAggregatePrevote cmd [s] st)
             = calls (trace st) ++ [types.RpcAggregatePrevote req])
        /\ (callsAfter (execute GetCmdQueryAggregateVote cmd [s] st)
            = calls (trace st)
            \/ exists req,
                callsAfter (execute GetCmdQueryAggregateVote cmd [s] st)
                = calls (trace st) ++ [types.RpcAggregateVote req])).
Proof.
  intros Hctx. split; [|split].
  - split; start_run; rewrite (bind_lift_Ok _ _ _ _ Hctx);
      apply call_print_calls.
  - intros s v Hdec. split; start_run;
      rewrite (bind_lift_Ok _ _ _ _ Hctx), bind_ret,
        (bind_lift_Ok _ _ _ _ Hdec);
      apply call_print_calls.
  - intros s. split; start_run;
      rewrite (bind_lift_Ok _ _ _ _ Hctx), bind_ret;
      (destruct (ValAddressFromBech32 s) as [v|e] eqn:Hdec;
       [ rewrite (bind_lift_Ok _ _ _ _ eq_refl); right; eexists;
         apply call_print_calls
       | rewrite (bind_lift_Err _ _ _ _ eq_refl); now left ]).
Qed.

(** *** Commands without arguments *)

(** C6. [actives] and [params] given any positional argument end with
    the error of the argument validator, and the state is the one they
    started in: nothing was decoded, called or written. *)
Theorem no_args_commands_reject_arguments (cmd : Cmd) (a : string)
        (args : list string) (st : State) :
  execute GetCmdQueryActives cmd (a :: args) st
  = (Failed (ErrUnknownCommand a (CommandPath cmd)), st)
  /\ execute GetCmdQueryParams cmd (a :: args) st
     = (Failed (ErrUnknownCommand a (CommandPath cmd)), st).
Proof. split; reflexivity. Qed.

(** *** All commands *)

(** C9. In each of the seven commands, when the client context cannot be
    obtained the body returns that error at once, whatever the argument
    list, and the state is untouched; the command as a whole then issues
    no call, writes nothing and ends in an error. *)
Theorem context_failure_returns_at_once (c : Command) (cmd : Cmd)
        (e : error) (args : list string) (st : State) :
  In c GetQueryCmd ->
  GetClientQueryContext cmd = Err e ->
  RunE c cmd args st = (Failed e, st)
  /\ snd (execute c cmd args st) = st
  /\ exists e', fst (execute c cmd args st) = Failed e'.
Proof.
  intros Hc Hctx.
  assert (Hrun : RunE c cmd args st = (Failed e, st)).
  { destruct Hc as [<-|[<-|[<-|[<-|[<-|[<-|[<-|[]]]]]]]];
      cbn [RunE GetCmdQueryExchangeRates GetCmdQueryActives
           GetCmdQueryParams GetCmdQueryFeederDelegation
           GetCmdQueryMissCounter GetCmdQueryAggregatePrevote
           GetCmdQueryAggregateVote];
      apply bind_lift_Err, Hctx. }
  split; [exact Hrun|]. unfold execute.
  destruct (Args c cmd args) as [e0|].
  - split; [reflexivity | now exists e0].
  - rewrite Hrun. split; [reflexivity | now exists e].
Qed.

(** The commands are told apart by their [Use] line. *)
Ltac not_validator :=
  let H := fresh "H" in
  intros H; simpl in H;
  destruct H as [H|[H|[H|[H|[]]]]];
  apply (f_equal Use) in H; discriminate.

(** A body that goes straight from the client context to its call. *)
Ltac calls_at_once Hctx :=
  right; split; [reflexivity|];
  split; [first [not_validator | intros _ ? []]|];
  eexists _, _; split; [reflexivity|]; start_run;
  now rewrite (bind_lift_Ok _ _ _ _ Hctx), ?bind_ret.

(** A body that decodes its argument [a] between the two. *)
Ltac decodes_first Hctx a :=
  let v := fresh "v" in
  let e := fresh "e" in
  let Hdec := fresh "Hdec" in
  destruct (ValAddressFromBech32 a) as [v|e] eqn:Hdec;
  [ right; split; [reflexivity|];
    split; [intros _ ? [<-|[]]; now exists v|];
    eexists _, _; split; [reflexivity|]; start_run;
    now rewrite (bind_lift_Ok _ _ _ _ Hctx), bind_ret,
      (bind_lift_Ok _ _ _ _ Hdec)
  | left; split; [reflexivity|]; split; [simpl; auto|];
    eexists _, a, e; repeat split; auto; start_run;
    now rewrite (bind_lift_Ok _ _ _ _ Hctx), bind_ret,
      (bind_lift_Err _ _ _ _ Hdec) ].

(** The four ways a command can go: the argument validator refuses; the
    client context is not obtained; the validator address does not
    decode; or one call is made and its answer printed. *)
Lemma execute_cases (c : Command) (cmd : Cmd) (args : list string)
      (st : State) :
  In c GetQueryCmd ->
  (exists e, Args c cmd args = Some e
             /\ execute c cmd args st = (Failed e, st))
  \/ (Args c cmd args = None
      /\ exists e, GetClientQueryContext cmd = Err e
                   /\ execute c cmd args st = (Failed e, st))
  \/ (Args c cmd args = None
      /\ In c validatorCommands
      /\ exists clientCtx s e,
          GetClientQueryContext cmd = Ok clientCtx
          /\ args = [s]
          /\ ValAddressFromBech32 s = Err e
          /\ execute c cmd args st = (Failed e, st))
  \/ (Args c cmd args = None
      /\ (In c validatorCommands ->
          forall s, In s args -> exists v, ValAddressFromBech32 s = Ok v)
      /\ exists clientCtx rpc,
          GetClientQueryContext cmd = Ok clientCtx
          /\ execute c cmd args st
             = (res <- call clientCtx rpc ;; PrintProto clientCtx res) st).
Proof.
  intros Hc.
  destruct (Args c cmd args) as [e0|] eqn:Hargs.
  { left. exists e0. unfold execute. now rewrite Hargs. }
  right.
  destruct (GetClientQueryContext cmd) as [clientCtx|e0] eqn:Hctx.
  2:{ left. split; [reflexivity|]. exists e0. split; [reflexivity|].
      unfold execute. rewrite Hargs.
      destruct Hc as [<-|[<-|[<-|[<-|[<-|[<-|[<-|[]]]]]]]];
        cbn [RunE GetCmdQueryExchangeRates GetCmdQueryActives
             GetCmdQueryParams GetCmdQueryFeederDelegation
             GetCmdQueryMissCounter GetCmdQueryAggregatePrevote
             GetCmdQueryAggregateVote];
        apply bind_lift_Err, Hctx. }
  right.
  destruct Hc as [<-|[<-|[<-|[<-|[<-|[<-|[<-|[]]]]]]]];
    destruct args as [|a [|b rest]]; try discriminate Hargs.
  (* exchange-rates, without and with a denom *)
  - calls_at_once Hctx.
  - calls_at_once Hctx.
  (* actives *)
  - calls_at_once Hctx.
  (* params *)
  - calls_at_once Hctx.
  (* feeder *)
  - decodes_first Hctx a.
  (* miss *)
  - decodes_first Hctx a.
  (* aggregate-prevotes, without and with a validator *)
  - calls_at_once Hctx.
  - decodes_first Hctx a.
  (* aggregate-votes, without and with a validator *)
  - calls_at_once Hctx.
  - decodes_first Hctx a.
Qed.

(** C7. Every command run issues at most one call: none when the
    argument validator refuses, when the client context is not obtained
    or when the validator address does not decode, and exactly one when
    all of these succeed. *)
Theorem at_most_one_call (c : Command) (cmd : Cmd) (args : list string)
        (st : State) :
  In c GetQueryCmd ->
  exists issued : list types.Rpc,
    callsAfter (execute c cmd args st) = calls (trace st) ++ issued
    /\ length issued <= 1
    /\ (forall e, Args c cmd args = Some e -> issued = [])
    /\ (forall e, GetClientQueryContext cmd = Err e -> issued = [])
    /\ (In c validatorCommands ->
        forall s e, In s args -> ValAddressFromBech32 s = Err e ->
                    issued = [])
    /\ (Args c cmd args = None ->
        (exists clientCtx, GetClientQueryContext cmd = Ok clientCtx) ->
        (In c validatorCommands ->
         forall s, In s args -> exists v, ValAddressFromBech32 s = Ok v) ->
        length issued = 1).
Proof.
  intros Hc.
  destruct (execute_cases c cmd args st Hc)
    as [(e0 & Hargs & Hrun)
       |[(Hargs & e0 & Hctx & Hrun)
        |[(Hargs & Hval & ctx & s0 & e0 & Hctx & -> & Hdec & Hrun)
         |(Hargs & Hdec & ctx & rpc & Hctx & Hrun)]]].
  - exists []. unfold callsAfter. rewrite Hrun, app_nil_r. simpl.
    repeat split; auto. congruence.
  - exists []. unfold callsAfter. rewrite Hrun, app_nil_r. simpl.
    repeat split; auto. intros _ [ctx Hok]. congruence.
  - exists []. unfold callsAfter. rewrite Hrun, app_nil_r. simpl.
    repeat split; auto. intros _ _ Hall.
    destruct (Hall Hval s0 (or_introl eq_refl)) as [v Hv]. congruence.
  - exists [rpc]. rewrite Hrun, call_print_calls. simpl.
    repeat split; auto; try congruence.
    intros Hval s e Hin Herr.
    destruct (Hdec Hval s Hin) as [v Hv]. congruence.
Qed.

(** C8. In every command an error of the decoder or of the node is what
    the run returns, as it is, and the run stops there: after a decoding
    error the state is the initial one, and after an error answer to the
    call the command issued the trace has gained that call and nothing
    else, so that nothing was written in either case. *)
Theorem errors_propagate_unmodified (c : Command) (cmd : Cmd)
        (clientCtx : Context) (args : list string) (st : State) :
  In c GetQueryCmd ->
  GetClientQueryContext cmd = Ok clientCtx ->
  (In c validatorCommands ->
   forall s e, args = [s] -> ValAddressFromBech32 s = Err e ->
               execute c cmd args st = (Failed e, st)
               /\ outputAfter (execute c cmd args st) = output (trace st))
  /\ (forall rpc e,
        callsAfter (execute c cmd args st) = calls (trace st) ++ [rpc] ->
        fst (Invoke clientCtx rpc (node st)) = Err e ->
        execute c cmd args st
        = (Failed e, mkState (snd (Invoke clientCtx rpc (node st)))
                             (trace st ++ [Invoked rpc]))
        /\ outputAfter (execute c cmd args st) = output (trace st)).
Proof.
  intros Hc Hctx. split.
  - intros Hval s e -> Hdec.
    destruct (decode_failure_run c cmd s e st Hval Hdec) as (_ & _ & Hrun).
    unfold outputAfter. now rewrite (Hrun clientCtx Hctx).
  - intros rpc e Hcalls Hans.
    assert (Hnone : forall r, execute c cmd args st = (r, st) -> False).
    { intros r Hrun. unfold callsAfter in Hcalls.
      rewrite Hrun in Hcalls. simpl in Hcalls.
      rewrite <- (app_nil_r (calls (trace st))) in Hcalls at 1.
      apply app_inv_head in Hcalls. discriminate. }
    destruct (execute_cases c cmd args st Hc)
      as [(e0 & _ & Hrun)
         |[(_ & e0 & _ & Hrun)
          |[(_ & _ & _ & _ & e0 & _ & _ & _ & Hrun)
           |(_ & _ & ctx & rpc' & Hctx' & Hrun)]]];
      try (exfalso; exact (Hnone _ Hrun)).
    assert (ctx = clientCtx) as -> by congruence.
    rewrite Hrun, call_print_calls in Hcalls.
    apply app_inv_head in Hcalls. injection Hcalls as ->.
    unfold outputAfter.
    rewrite Hrun, (call_print_Err _ _ _ _ Hans). simpl.
    split; [reflexivity|].
    now rewrite output_app, app_nil_r.
Qed.

(** *** What a run leaves behind *)

(** The call a run issued, read off its trace, is the one its body made
    with the client context of the command. *)
Lemma issued_call_run (c : Command) (cmd : Cmd) (clientCtx : Context)
      (args : list string) (st : State) (rpc : types.Rpc) :
  In c GetQueryCmd ->
  GetClientQueryContext cmd = Ok clientCtx ->
  callsAfter (execute c cmd args st) = calls (trace st) ++ [rpc] ->
  execute c cmd args st
  = (res <- call clientCtx rpc ;; PrintProto clientCtx res) st.
Proof.
  intros Hc Hctx Hcalls.
  assert (Hnone : forall r, execute c cmd args st = (r, st) -> False).
  { intros r Hrun. unfold callsAfter in Hcalls.
    rewrite Hrun in Hcalls. simpl in Hcalls.
    rewrite <- (app_nil_r (calls (trace st))) in Hcalls at 1.
    apply app_inv_head in Hcalls. discriminate. }
  destruct (execute_cases c cmd args st Hc)
    as [(e0 & _ & Hrun)
       |[(_ & e0 & _ & Hrun)
        |[(_ & _ & _ & _ & e0 & _ & _ & _ & Hrun)
         |(_ & _ & ctx & rpc' & Hctx' & Hrun)]]];
    try (exfalso; exact (Hnone _ Hrun)).
  assert (ctx = clientCtx) as -> by congruence.
  rewrite Hrun, call_print_calls in Hcalls.
  apply app_inv_head in Hcalls. injection Hcalls as ->.
  exact Hrun.
Qed.

(** X1.  [actives] and [params] without arguments, with a client context at
    hand, issue exactly their own procedure on the empty request. *)
Theorem actives_params_dispatch (cmd : Cmd) (clientCtx : Context)
        (st : State) :
  GetClientQueryContext cmd = Ok clientCtx ->
  callsAfter (execute GetCmdQueryActives cmd [] st)
  = calls (trace st) ++ [types.RpcActives types.Build_QueryActivesRequest]
  /\ callsAfter (execute GetCmdQueryParams cmd [] st)
     = calls (trace st) ++ [types.RpcParams types.Build_QueryParamsRequest].
Proof.
  intros Hctx. split; start_run; rewrite (bind_lift_Ok _ _ _ _ Hctx);
    apply call_print_calls.
Qed.

(** X2.  When the node answers the call a command issued, the command prints
    that answer with the client context it called with: the trace gains
    the call and then the printer's chunks, the node has served one call,
    and the command returns what the printer returns. *)
Theorem answer_is_printed (c : Command) (cmd : Cmd) (clientCtx : Context)
        (args : list string) (st : State) (rpc : types.Rpc)
        (res : Response) :
  In c GetQueryCmd ->
  GetClientQueryContext cmd = Ok clientCtx ->
  callsAfter (execute c cmd args st) = calls (trace st) ++ [rpc] ->
  fst (Invoke clientCtx rpc (node st)) = Ok res ->
  execute c cmd args st
  = (match snd (printOutput clientCtx res) with
     | None => Returned tt
     | Some e => Failed e
     end,
     mkState (snd (Invoke clientCtx rpc (node st)))
             (trace st ++ Invoked rpc
                :: map Written (fst (printOutput clientCtx res)))).
Proof.
  intros Hc Hctx Hcalls Hans.
  rewrite (issued_call_run c cmd clientCtx args st rpc Hc Hctx Hcalls),
    (call_print_Ok _ _ _ _ Hans).
  unfold PrintProto.
  destruct (printOutput clientCtx res) as [chunks [e|]]; simpl;
    now rewrite <- app_assoc.
Qed.

(** X3.  A run only ever extends the trace, and in one of two ways: it leaves
    the state as it found it, or it adds one call, made with the client
    context of the command, followed by the printed answer when the node
    gave one and by nothing when it gave an error; the node has then
    served exactly that call. *)
Theorem run_shape (c : Command) (cmd : Cmd) (args : list string)
        (st : State) :
  In c GetQueryCmd ->
  snd (execute c cmd args st) = st
  \/ exists clientCtx rpc,
      GetClientQueryContext cmd = Ok clientCtx
      /\ snd (execute c cmd args st)
         = mkState (snd (Invoke clientCtx rpc (node st)))
             (trace st ++ Invoked rpc
                :: match fst (Invoke clientCtx rpc (node st)) with
                   | Ok res => map Written (fst (printOutput clientCtx res))
                   | Err _ => []
                   end).
Proof.
  intros Hc.
  destruct (execute_cases c cmd args st Hc)
    as [(e0 & _ & Hrun)
       |[(_ & e0 & _ & Hrun)
        |[(_ & _ & _ & _ & e0 & _ & _ & _ & Hrun)
         |(_ & _ & ctx & rpc & Hctx & Hrun)]]];
    try (left; now rewrite Hrun).
  right. exists ctx, rpc. split; [exact Hctx|]. rewrite Hrun.
  destruct (fst (Invoke ctx rpc (node st))) as [res|e] eqn:Hans.
  - rewrite (call_print_Ok _ _ _ _ Hans). unfold PrintProto.
    destruct (printOutput ctx res) as [chunks [e|]]; simpl;
      now rewrite <- app_assoc.
  - now rewrite (call_print_Err _ _ _ _ Hans).
Qed.

(** X4.  Nothing is written unless a call was issued and the node answered it:
    a run whose output differs from the output before it has issued
    exactly one call, and the node's answer to it was not an error. *)
Theorem output_needs_answer (c : Command) (cmd : Cmd) (args : list string)
        (st : State) :
  In c GetQueryCmd ->
  outputAfter (execute c cmd args st) <> output (trace st) ->
  exists clientCtx rpc res,
    GetClientQueryContext cmd = Ok clientCtx
    /\ callsAfter (execute c cmd args st) = calls (trace st) ++ [rpc]
    /\ fst (Invoke clientCtx rpc (node st)) = Ok res
    /\ outputAfter (execute c cmd args st)
       = output (trace st) ++ fst (printOutput clientCtx res).
Proof.
  intros Hc Hout. unfold outputAfter, callsAfter in *.
  destruct (execute_cases c cmd args st Hc)
    as [(e0 & _ & Hrun)
       |[(_ & e0 & _ & Hrun)
        |[(_ & _ & _ & _ & e0 & _ & _ & _ & Hrun)
         |(_ & _ & ctx & rpc & Hctx & Hrun)]]];
    try (rewrite Hrun in Hout; now elim Hout).
  rewrite Hrun in *.
  destruct (fst (Invoke ctx rpc (node st))) as [res|e] eqn:Hans.
  - exists ctx, rpc, res. split; [exact Hctx|].
    split; [apply call_print_calls|]. split; [exact Hans|].
    rewrite (call_print_Ok _ _ _ _ Hans). unfold PrintProto.
    destruct (printOutput ctx res) as [chunks [e|]]; simpl;
      rewrite !output_app, output_Written; simpl;
      now rewrite app_nil_r.
  - exfalso. apply Hout. rewrite (call_print_Err _ _ _ _ Hans). simpl.
    rewrite output_app. simpl. apply app_nil_r.
Qed.

(** X5.  A command returns nil exactly when its arguments pass the validator,
    the client context is obtained, a call is issued, the node answers it
    and the printer prints the answer without an error. *)
Theorem success_iff (c : Command) (cmd : Cmd) (args : list string)
        (st : State) :
  In c GetQueryCmd ->
  fst (execute c cmd args st) = Returned tt
  <-> (Args c cmd args = None
       /\ exists clientCtx rpc res,
           GetClientQueryContext cmd = Ok clientCtx
           /\ callsAfter (execute c cmd args st) = calls (trace st) ++ [rpc]
           /\ fst (Invoke clientCtx rpc (node st)) = Ok res
           /\ snd (printOutput clientCtx res) = None).
Proof.
  intros Hc. split.
  - intros Hret.
    destruct (execute_cases c cmd args st Hc)
      as [(e0 & _ & Hrun)
         |[(_ & e0 & _ & Hrun)
          |[(_ & _ & _ & _ & e0 & _ & _ & _ & Hrun)
           |(Hargs & _ & ctx & rpc & Hctx & Hrun)]]];
      try (rewrite Hrun in Hret; discriminate Hret).
    split; [exact Hargs|].
    destruct (fst (Invoke ctx rpc (node st))) as [res|e] eqn:Hans.
    + exists ctx, rpc, res. split; [exact Hctx|].
      split; [rewrite Hrun; apply call_print_calls|].
      split; [exact Hans|].
      rewrite Hrun, (call_print_Ok _ _ _ _ Hans) in Hret.
      unfold PrintProto in Hret.
      destruct (printOutput ctx res) as [chunks [e|]];
        [discriminate Hret | reflexivity].
    + rewrite Hrun, (call_print_Err _ _ _ _ Hans) in Hret.
      discriminate Hret.
  - intros (_ & ctx & rpc & res & Hctx & Hcalls & Hans & Hpr).
    rewrite (issued_call_run c cmd ctx args st rpc Hc Hctx Hcalls),
      (call_print_Ok _ _ _ _ Hans).
    unfold PrintProto.
    destruct (printOutput ctx res) as [chunks err]. simpl in Hpr.
    now rewrite Hpr.
Qed.

(** *** Argument counts *)

(** X6.  [feeder] and [miss] given any number of arguments other than one,
    none included, end with the error of [ExactArgs(1)], which reports
    the count received, and leave the state as it was. *)
Theorem exact_args_refuse_other_counts (cmd : Cmd) (args : list string)
        (st : State) :
  length args <> 1 ->
  execute GetCmdQueryFeederDelegation cmd args st
  = (Failed (ErrAcceptsExact 1 (length args)), st)
  /\ execute GetCmdQueryMissCounter cmd args st
     = (Failed (ErrAcceptsExact 1 (length args)), st).
Proof.
  intros Hlen. unfold execute.
  cbn [Args GetCmdQueryFeederDelegation GetCmdQueryMissCounter].
  unfold ExactArgs.
  destruct (Nat.eqb_spec (length args) 1) as [Heq|_]; [contradiction|].
  split; reflexivity.
Qed.

(** X7.  [exchange-rates], [aggregate-prevotes] and [aggregate-votes] given more
    than one argument end with the error of [RangeArgs(0, 1)], which
    reports the count received, and leave the state as it was. *)
Theorem range_args_refuse_more_than_one (cmd : Cmd) (args : list string)
        (st : State) :
  1 < length args ->
  execute GetCmdQueryExchangeRates cmd args st
  = (Failed (ErrAcceptsRange 0 1 (length args)), st)
  /\ execute GetCmdQueryAggregatePrevote cmd args st
     = (Failed (ErrAcceptsRange 0 1 (length args)), st)
  /\ execute GetCmdQueryAggregateVote cmd args st
     = (Failed (ErrAcceptsRange 0 1 (length args)), st).
Proof.
  intros Hlen. unfold execute.
  cbn [Args GetCmdQueryExchangeRates GetCmdQueryAggregatePrevote
       GetCmdQueryAggregateVote].
  unfold RangeArgs.
  destruct (Nat.ltb_spec 1 (length args)) as [_|Hle]; [|lia].
  rewrite orb_true_r. repeat split.
Qed.

(** X8.  A command body panics in one situation only: it is the body of
    [feeder] or of [miss], the argument list is empty and the client
    context was obtained.  The bodies with an optional argument look at
    the length before they index. *)
Theorem body_panics_iff (c : Command) (cmd : Cmd) (args : list string)
        (st : State) :
  In c GetQueryCmd ->
  fst (RunE c cmd args st) = Panicked
  <-> ((c = GetCmdQueryFeederDelegation \/ c = GetCmdQueryMissCounter)
       /\ args = []
       /\ exists clientCtx, GetClientQueryContext cmd = Ok clientCtx).
Proof.
  intros Hc. split.
  - intros Hpanic.
    destruct (GetClientQueryContext cmd) as [ctx|e0] eqn:Hctx.
    2:{ exfalso.
        destruct Hc as [<-|[<-|[<-|[<-|[<-|[<-|[<-|[]]]]]]]];
          cbn [RunE GetCmdQueryExchangeRates GetCmdQueryActives
               GetCmdQueryParams GetCmdQueryFeederDelegation
               GetCmdQueryMissCounter GetCmdQueryAggregatePrevote
               GetCmdQueryAggregateVote] in Hpanic;
          rewrite (bind_lift_Err _ _ _ _ Hctx) in Hpanic;
          discriminate Hpanic. }
    assert (Hcall : forall rpc,
              fst ((res <- call ctx rpc ;; PrintProto ctx res) st)
              <> Panicked).
    { intros rpc. unfold bind, call.
      destruct (Invoke ctx rpc (node st)) as [[res|e1] n'];
        [|discriminate]. cbn [lift ret]. unfold PrintProto.
      destruct (printOutput ctx res) as [chunks [e2|]]; discriminate. }
    destruct Hc as [<-|[<-|[<-|[<-|[<-|[<-|[<-|[]]]]]]]];
      destruct args as [|a rest]; start_run_in Hpanic;
      rewrite (bind_lift_Ok _ _ _ _ Hctx), ?bind_ret in Hpanic;
      try (exfalso; exact (Hcall _ Hpanic));
      try (split; [auto|split; [reflexivity|now exists ctx]]);
      (destruct (ValAddressFromBech32 a) as [v|e1];
       [ rewrite (bind_lift_Ok _ _ _ _ eq_refl) in Hpanic;
         exfalso; exact (Hcall _ Hpanic)
       | rewrite (bind_lift_Err _ _ _ _ eq_refl) in Hpanic;
         discriminate Hpanic ]).
  - intros ([-> | ->] & -> & ctx & Hctx); start_run;
      now rewrite (bind_lift_Ok _ _ _ _ Hctx).
Qed.

(** *** The address argument is used through its decoding alone *)

(** X10.  For the four commands that take a validator address, two arguments on
    which the decoder gives the same result give the same run: the same
    outcome, the same request and the same final state. *)
Theorem validator_run_depends_on_decoding (c : Command) (cmd : Cmd)
        (s1 s2 : string) (st : State) :
  In c validatorCommands ->
  ValAddressFromBech32 s1 = ValAddressFromBech32 s2 ->
  execute c cmd [s1] st = execute c cmd [s2] st.
Proof.
  intros Hc Hsame.
  destruct Hc as [<-|[<-|[<-|[<-|[]]]]]; start_run;
    (destruct (GetClientQueryContext cmd) as [ctx|e0]; [|reflexivity]);
    rewrite !(bind_lift_Ok _ _ _ _ eq_refl), !bind_ret, Hsame;
    reflexivity.
Qed.

End Commands.

(** *** The statements on the test double *)

Local Abbreviation exchangeRates :=
  (GetCmdQueryExchangeRates _ _ _ _
     Double.GetClientQueryContext Double.Invoke Double.printOutput).
Local Abbreviation feeder :=
  (GetCmdQueryFeederDelegation _ _ _ _
     Double.GetClientQueryContext Double.ValAddressFromBech32
     Double.ValAddress_String Double.Invoke Double.printOutput).
Local Abbreviation miss :=
  (GetCmdQueryMissCounter _ _ _ _
     Double.GetClientQueryContext Double.ValAddressFromBech32
     Double.ValAddress_String Double.Invoke Double.printOutput).
Local Abbreviation aggregatePrevotes :=
  (GetCmdQueryAggregatePrevote _ _ _ _
     Double.GetClientQueryContext Double.ValAddressFromBech32
     Double.ValAddress_String Double.Invoke Double.printOutput).
Local Abbreviation subCommands :=
  (GetQueryCmd _ _ _ _ Double.CommandPath
     Double.GetClientQueryContext Double.ValAddressFromBech32
     Double.ValAddress_String Double.Invoke Double.printOutput).
Local Abbreviation withValidator :=
  (validatorCommands _ _ _ _
     Double.GetClientQueryContext Double.ValAddressFromBech32
     Double.ValAddress_String Double.Invoke Double.printOutput).
Local Abbreviation fresh := (mkState Double.Node Double.start []).

Lemma exchange_rates_dispatch_witness :
  Double.GetClientQueryContext Double.cmd = Ok Double.cmd
  /\ callsAfter _ (execute _ _ exchangeRates Double.cmd ["KUJI"] fresh)
     = [types.RpcExchangeRate {| types.Denom := "KUJI" |}].
Proof.
  split; [reflexivity|].
  exact (proj2 (exchange_rates_dispatch _ _ _ _ _ _ _
                  Double.cmd Double.cmd fresh eq_refl) "KUJI").
Defined.

Lemma exchange_rates_denom_unchecked_witness :
  Double.GetClientQueryContext Double.cmd = Ok Double.cmd
  /\ callsAfter _ (execute _ _ exchangeRates Double.cmd [""] fresh)
     = [types.RpcExchangeRate {| types.Denom := "" |}].
Proof.
  split; [reflexivity|].
  exact (proj1 (exchange_rates_denom_unchecked _ _ _ _ _ _ _
                  Double.cmd Double.cmd "" fresh eq_refl)).
Defined.

Lemma validator_request_carries_string_form_witness :
  Double.GetClientQueryContext Double.cmd = Ok Double.cmd
  /\ Double.ValAddressFromBech32 "kujiravaloper1abc"
     = Ok (list_byte_of_string "abc")
  /\ callsAfter _
       (execute _ _ feeder Double.cmd ["kujiravaloper1abc"] fresh)
     = [types.RpcFeederDelegation
          {| types.FeederDelegation_ValidatorAddr := "kujiravaloper1abc" |}].
Proof.
  split; [reflexivity|]. split; [reflexivity|].
  exact (proj1 (validator_request_carries_string_form _ _ _ _ _ _ _ _ _
                  Double.cmd Double.cmd "kujiravaloper1abc"
                  (list_byte_of_string "abc") fresh eq_refl eq_refl)).
Defined.

Lemma decode_failure_issues_no_call_witness :
  In miss withValidator
  /\ Double.ValAddressFromBech32 "notavalidaddress"
     = Err (ErrExternal "decoding bech32 failed")
  /\ callsAfter _ (execute _ _ miss Double.cmd ["notavalidaddress"] fresh)
     = [].
Proof.
  split; [right; left; reflexivity|]. split; [reflexivity|].
  exact (proj1 (decode_failure_issues_no_call _ _ _ _ _ _ _ _ _
                  miss Double.cmd "notavalidaddress"
                  (ErrExternal "decoding bech32 failed") fresh
                  (or_intror (or_introl eq_refl)) eq_refl)).
Defined.

Lemma aggregate_dispatch_by_presence_witness :
  Double.GetClientQueryContext Double.cmd = Ok Double.cmd
  /\ callsAfter _ (execute _ _ aggregatePrevotes Double.cmd [] fresh)
     = [types.RpcAggregatePrevotes types.Build_QueryAggregatePrevotesRequest].
Proof.
  split; [reflexivity|].
  exact (proj1 (proj1 (aggregate_dispatch_by_presence _ _ _ _ _ _ _ _ _
                         Double.cmd Double.cmd fresh eq_refl))).
Defined.

Lemma context_failure_returns_at_once_witness :
  In feeder subCommands
  /\ Double.GetClientQueryContext Double.nodeless
     = Err (ErrExternal "missing node")
  /\ RunE _ _ feeder Double.nodeless [] fresh
     = (Failed (ErrExternal "missing node"), fresh).
Proof.
  split; [do 3 right; left; reflexivity|]. split; [reflexivity|].
  exact (proj1 (context_failure_returns_at_once _ _ _ _ Double.CommandPath
                  _ _ _ _ _ feeder Double.nodeless
                  (ErrExternal "missing node") [] fresh
                  (or_intror (or_intror (or_intror (or_introl eq_refl))))
                  eq_refl)).
Defined.

Lemma at_most_one_call_witness :
  In exchangeRates subCommands
  /\ exists issued,
      callsAfter _ (execute _ _ exchangeRates Double.cmd ["KUJI"] fresh)
      = issued
      /\ length issued <= 1.
Proof.
  split; [left; reflexivity|].
  destruct (at_most_one_call _ _ _ _ Double.CommandPath
              Double.GetClientQueryContext Double.ValAddressFromBech32
              Double.ValAddress_String Double.Invoke Double.printOutput
              exchangeRates Double.cmd ["KUJI"] fresh (or_introl eq_refl))
    as (issued & Hcalls & Hle & _).
  exists issued. split; [exact Hcalls | exact Hle].
Defined.

Lemma errors_propagate_unmodified_witness :
  In exchangeRates subCommands
  /\ Double.GetClientQueryContext Double.cmd = Ok Double.cmd
  /\ execute _ _ exchangeRates Double.cmd ["BTC"] fresh
     = (Failed (ErrExternal "unknown denom"),
        mkState Double.Node 1
          [Invoked (types.RpcExchangeRate {| types.Denom := "BTC" |})]).
Proof.
  split; [left; reflexivity|]. split; [reflexivity|].
  exact (proj1 (proj2 (errors_propagate_unmodified _ _ _ _
                         Double.CommandPath
                         Double.GetClientQueryContext
                         Double.ValAddressFromBech32
                         Double.ValAddress_String Double.Invoke
                         Double.printOutput
                         exchangeRates Double.cmd Double.cmd ["BTC"] fresh
                         (or_introl eq_refl) eq_refl)
                 (types.RpcExchangeRate {| types.Denom := "BTC" |})
                 (ErrExternal "unknown denom") eq_refl eq_refl)).
Defined.

(** *** Runs on the test double *)

Local Abbreviation actives :=
  (GetCmdQueryActives _ _ _ _ Double.CommandPath
     Double.GetClientQueryContext Double.Invoke Double.printOutput).

(** [exchange-rates]: the list request, then the answer is printed. *)
Example run_exchange_rates :
  execute _ _ exchangeRates Double.cmd [] fresh
  = (Returned tt,
     mkState Double.Node 1
       [Invoked (types.RpcExchangeRates types.Build_QueryExchangeRatesRequest);
        Written "{}"]).
Proof. reflexivity. Qed.

(** [exchange-rates KUJI]: the request carries the denom. *)
Example run_exchange_rates_KUJI :
  execute _ _ exchangeRates Double.cmd ["KUJI"] fresh
  = (Returned tt,
     mkState Double.Node 1
       [Invoked (types.RpcExchangeRate {| types.Denom := "KUJI" |});
        Written "exchange_rate: 1.5"]).
Proof. reflexivity. Qed.

(** [exchange-rates KUJI BTC]: one argument too many. *)
Example run_exchange_rates_two_denoms :
  execute _ _ exchangeRates Double.cmd ["KUJI"; "BTC"] fresh
  = (Failed (ErrAcceptsRange 0 1 2), fresh).
Proof. reflexivity. Qed.

(** [feeder kujiravaloper1abc]: decoded, and the request carries the string
    form. *)
Example run_feeder :
  execute _ _ feeder Double.cmd ["kujiravaloper1abc"] fresh
  = (Returned tt,
     mkState Double.Node 1
       [Invoked (types.RpcFeederDelegation
                   {| types.FeederDelegation_ValidatorAddr :=
                        "kujiravaloper1abc" |});
        Written "{}"]).
Proof. reflexivity. Qed.

(** [feeder] without its argument is refused before the body runs. *)
Example run_feeder_without_argument :
  execute _ _ feeder Double.cmd [] fresh = (Failed (ErrAcceptsExact 1 0), fresh).
Proof. reflexivity. Qed.

(** [miss notavalidaddress]: the decoder's error, and no call. *)
Example run_miss_invalid :
  execute _ _ miss Double.cmd ["notavalidaddress"] fresh
  = (Failed (ErrExternal "decoding bech32 failed"), fresh).
Proof. reflexivity. Qed.

(** [actives KUJI]: refused by the argument validator. *)
Example run_actives_with_argument :
  execute _ _ actives Double.cmd ["KUJI"] fresh
  = (Failed (ErrUnknownCommand "KUJI" "kujirad query oracle"), fresh).
Proof. reflexivity. Qed.

(** *** The run-level statements on the test double *)

Lemma actives_params_dispatch_witness :
  Double.GetClientQueryContext Double.cmd = Ok Double.cmd
  /\ callsAfter _ (execute _ _ actives Double.cmd [] fresh)
     = [types.RpcActives types.Build_QueryActivesRequest].
Proof.
  split; [reflexivity|].
  exact (proj1 (actives_params_dispatch _ _ _ _ Double.CommandPath
                  Double.GetClientQueryContext Double.Invoke
                  Double.printOutput Double.cmd Double.cmd fresh eq_refl)).
Defined.

Lemma answer_is_printed_witness :
  In exchangeRates subCommands
  /\ Double.GetClientQueryContext Double.cmd = Ok Double.cmd
  /\ callsAfter _ (execute _ _ exchangeRates Double.cmd ["KUJI"] fresh)
     = [types.RpcExchangeRate {| types.Denom := "KUJI" |}]
  /\ fst (Double.Invoke Double.cmd
            (types.RpcExchangeRate {| types.Denom := "KUJI" |}) Double.start)
     = Ok "exchange_rate: 1.5"
  /\ execute _ _ exchangeRates Double.cmd ["KUJI"] fresh
     = (Returned tt,
        mkState Double.Node 1
          [Invoked (types.RpcExchangeRate {| types.Denom := "KUJI" |});
           Written "exchange_rate: 1.5"]).
Proof.
  split; [left; reflexivity|]. repeat (split; [reflexivity|]).
  exact (answer_is_printed _ _ _ _ Double.CommandPath
           Double.GetClientQueryContext Double.ValAddressFromBech32
           Double.ValAddress_String Double.Invoke Double.printOutput
           exchangeRates Double.cmd Double.cmd ["KUJI"] fresh
           (types.RpcExchangeRate {| types.Denom := "KUJI" |})
           "exchange_rate: 1.5" (or_introl eq_refl) eq_refl eq_refl eq_refl).
Defined.

Lemma run_shape_witness :
  In miss subCommands
  /\ (snd (execute _ _ miss Double.cmd ["kujiravaloper1abc"] fresh) = fresh
      \/ exists clientCtx rpc,
          Double.GetClientQueryContext Double.cmd = Ok clientCtx
          /\ snd (execute _ _ miss Double.cmd ["kujiravaloper1abc"] fresh)
             = mkState Double.Node
                 (snd (Double.Invoke clientCtx rpc Double.start))
                 (Invoked rpc
                    :: match fst (Double.Invoke clientCtx rpc Double.start)
                       with
                       | Ok res =>
                           map Written (fst (Double.printOutput clientCtx res))
                       | Err _ => []
                       end)).
Proof.
  split; [do 4 right; left; reflexivity|].
  exact (run_shape _ _ _ _ Double.CommandPath
           Double.GetClientQueryContext Double.ValAddressFromBech32
           Double.ValAddress_String Double.Invoke Double.printOutput
           miss Double.cmd ["kujiravaloper1abc"] fresh
           (or_intror (or_intror (or_intror (or_intror
              (or_introl eq_refl)))))).
Defined.

Lemma output_needs_answer_witness :
  In exchangeRates subCommands
  /\ outputAfter _ (execute _ _ exchangeRates Double.cmd ["KUJI"] fresh)
     <> []
  /\ exists clientCtx rpc res,
      Double.GetClientQueryContext Double.cmd = Ok clientCtx
      /\ callsAfter _ (execute _ _ exchangeRates Double.cmd ["KUJI"] fresh)
         = [rpc]
      /\ fst (Double.Invoke clientCtx rpc Double.start) = Ok res
      /\ outputAfter _ (execute _ _ exchangeRates Double.cmd ["KUJI"] fresh)
         = fst (Double.printOutput clientCtx res).
Proof.
  split; [left; reflexivity|]. split; [discriminate|].
  refine (output_needs_answer _ _ _ _ Double.CommandPath
            Double.GetClientQueryContext Double.ValAddressFromBech32
            Double.ValAddress_String Double.Invoke Double.printOutput
            exchangeRates Double.cmd ["KUJI"] fresh
            (or_introl eq_refl) _).
  discriminate.
Defined.

Lemma success_iff_witness :
  In exchangeRates subCommands
  /\ fst (execute _ _ exchangeRates Double.cmd ["KUJI"] fresh) = Returned tt.
Proof.
  split; [left; reflexivity|].
  apply (proj2 (success_iff _ _ _ _ Double.CommandPath
                  Double.GetClientQueryContext Double.ValAddressFromBech32
                  Double.ValAddress_String Double.Invoke Double.printOutput
                  exchangeRates Double.cmd ["KUJI"] fresh
                  (or_introl eq_refl))).
  split; [reflexivity|].
  exists Double.cmd, (types.RpcExchangeRate {| types.Denom := "KUJI" |}),
    "exchange_rate: 1.5".
  repeat split.
Defined.

Lemma exact_args_refuse_other_counts_witness :
  length ["kujiravaloper1abc"; "kujiravaloper1def"] <> 1
  /\ execute _ _ feeder Double.cmd
       ["kujiravaloper1abc"; "kujiravaloper1def"] fresh
     = (Failed (ErrAcceptsExact 1 2), fresh).
Proof.
  split; [discriminate|].
  apply (exact_args_refuse_other_counts _ _ _ _
           Double.GetClientQueryContext Double.ValAddressFromBech32
           Double.ValAddress_String Double.Invoke Double.printOutput
           Double.cmd ["kujiravaloper1abc"; "kujiravaloper1def"] fresh).
  discriminate.
Defined.

Lemma range_args_refuse_more_than_one_witness :
  1 < length ["KUJI"; "BTC"; "ETH"]
  /\ execute _ _ exchangeRates Double.cmd ["KUJI"; "BTC"; "ETH"] fresh
     = (Failed (ErrAcceptsRange 0 1 3), fresh).
Proof.
  split; [simpl; lia|].
  apply (range_args_refuse_more_than_one _ _ _ _
           Double.GetClientQueryContext Double.ValAddressFromBech32
           Double.ValAddress_String Double.Invoke Double.printOutput
           Double.cmd ["KUJI"; "BTC"; "ETH"] fresh).
  simpl; lia.
Defined.

Lemma body_panics_iff_witness :
  In feeder subCommands
  /\ fst (RunE _ _ feeder Double.cmd [] fresh) = Panicked.
Proof.
  split; [do 3 right; left; reflexivity|].
  apply (proj2 (body_panics_iff _ _ _ _ Double.CommandPath
                  Double.GetClientQueryContext Double.ValAddressFromBech32
                  Double.ValAddress_String Double.Invoke Double.printOutput
                  feeder Double.cmd [] fresh
                  (or_intror (or_intror (or_intror (or_introl eq_refl)))))).
  split; [left; reflexivity|]. split; [reflexivity|].
  exists Double.cmd. reflexivity.
Defined.

Lemma execute_never_panics_witness :
  In feeder subCommands
  /\ fst (execute _ _ feeder Double.cmd [] fresh) <> Panicked.
Proof.
  split; [do 3 right; left; reflexivity|].
  exact (execute_never_panics _ _ _ _ Double.CommandPath
           Double.GetClientQueryContext Double.ValAddressFromBech32
           Double.ValAddress_String Double.Invoke Double.printOutput
           feeder Double.cmd [] fresh
           (or_intror (or_intror (or_intror (or_introl eq_refl))))).
Defined.

Lemma validator_run_depends_on_decoding_witness :
  In miss withValidator
  /\ Double.ValAddressFromBech32 "notavalidaddress"
     = Double.ValAddressFromBech32 "kujira1abc"
  /\ execute _ _ miss Double.cmd ["notavalidaddress"] fresh
     = execute _ _ miss Double.cmd ["kujira1abc"] fresh.
Proof.
  split; [right; left; reflexivity|]. split; [reflexivity|].
  exact (validator_run_depends_on_decoding _ _ _ _
           Double.GetClientQueryContext Double.ValAddressFromBech32
           Double.ValAddress_String Double.Invoke Double.printOutput
           miss Double.cmd "notavalidaddress" "kujira1abc" fresh
           (or_intror (or_introl eq_refl)) eq_refl).
Defined.

End cli.
